(** * CAPI cluster catalog provider: a shallow embedding

    Embedding of the catalog-backend-module-capi entity provider
    (CAPIClusterProvider, its configuration reader and the kubeconfig
    secret helpers).  JavaScript values are modelled as follows:
    - a value that may be [undefined] is an [option];
    - JavaScript truthiness on strings ([""] is falsy) is [js_or];
    - a JS object used as a string-keyed map is an association list;
    - a thrown exception / rejected promise is the [Err] side of [res]. *)

From Stdlib Require Import String Ascii List Bool ZArith Lia.
Import ListNotations.
Open Scope string_scope.
Open Scope list_scope.
#[local] Set Warnings "-register-all".

(** ** Errors and results *)

Inductive error : Type :=
| NotInitialized                 (* new Error('Not initialized') *)
| ApiError (msg : string)        (* a rejected Kubernetes API call *)
| ConfigError (msg : string)     (* a Backstage Config read that throws *)
| TypeError (msg : string).      (* a JavaScript runtime TypeError *)

Inductive res (A : Type) : Type :=
| Ok (a : A)
| Err (e : error).
Arguments Ok {A} a.
Arguments Err {A} e.

Definition res_bind {A B} (r : res A) (f : A -> res B) : res B :=
  match r with Ok a => f a | Err e => Err e end.

Notation "'let!' x := r 'in' k" := (res_bind r (fun x => k))
  (at level 200, x name, r at level 100, k at level 200).

Fixpoint res_map {A B} (f : A -> res B) (xs : list A) : res (list B) :=
  match xs with
  | [] => Ok []
  | x :: xs' => let! y := f x in let! ys := res_map f xs' in Ok (y :: ys)
  end.

(** ** JavaScript helpers *)

(** [a || b] on values of type [string | undefined]. *)
Definition js_or (a b : option string) : option string :=
  match a with
  | Some s => if String.eqb s "" then b else a
  | None => b
  end.

(** [a || b] on values of type [T[] | undefined]: an array is always truthy. *)
Definition js_or_list {A} (a b : option (list A)) : option (list A) :=
  match a with Some _ => a | None => b end.

(** Template-literal interpolation of a [string | undefined]. *)
Definition js_interp (o : option string) : string :=
  match o with Some s => s | None => "undefined" end.

(** Property read [obj[k]] on a JS object (keys are unique in a JS object;
    the first binding is the one read). *)
Fixpoint obj_get {A} (kvs : list (string * A)) (k : string) : option A :=
  match kvs with
  | [] => None
  | (k', v) :: kvs' => if String.eqb k k' then Some v else obj_get kvs' k
  end.

(** Property write [obj[k] = v]: an existing key keeps its position. *)
Fixpoint obj_set {A} (kvs : list (string * A)) (k : string) (v : A)
  : list (string * A) :=
  match kvs with
  | [] => [(k, v)]
  | (k', v') :: kvs' =>
      if String.eqb k k' then (k', v) :: kvs' else (k', v') :: obj_set kvs' k v
  end.

(** [String.prototype.split(',')]. *)
Fixpoint split_comma_aux (s : string) (cur : list ascii) : list string :=
  match s with
  | EmptyString => [string_of_list_ascii (rev cur)]
  | String c s' =>
      if Ascii.eqb c "," then string_of_list_ascii (rev cur) :: split_comma_aux s' []
      else split_comma_aux s' (c :: cur)
  end.

Definition split_comma (s : string) : list string := split_comma_aux s [].

(** The white-space and line-terminator code points of [String.prototype.trim]
    that fit in a byte: TAB, LF, VT, FF, CR, SPACE and NBSP. *)
Definition is_js_space (c : ascii) : bool :=
  let n := nat_of_ascii c in
  (Nat.eqb n 9 || Nat.eqb n 10 || Nat.eqb n 11 || Nat.eqb n 12 || Nat.eqb n 13
   || Nat.eqb n 32 || Nat.eqb n 160)%bool.

Fixpoint drop_space (l : list ascii) : list ascii :=
  match l with
  | c :: l' => if is_js_space c then drop_space l' else l
  | [] => []
  end.

(** [String.prototype.trim()]. *)
Definition trim (s : string) : string :=
  string_of_list_ascii (rev (drop_space (rev (drop_space (list_ascii_of_string s))))).

(** ** Constants (constants.ts and the imported Backstage packages) *)

Definition ANNOTATION_CAPI_PROVIDER := "cluster.x-k8s.io/capi-provider".
Definition ANNOTATION_CAPI_CLUSTER_LIFECYCLE := "cluster.x-k8s.io/cluster-lifecycle".
Definition ANNOTATION_CAPI_CLUSTER_OWNER := "cluster.x-k8s.io/cluster-owner".
Definition ANNOTATION_CAPI_CLUSTER_DESCRIPTION := "cluster.x-k8s.io/cluster-description".
Definition ANNOTATION_CAPI_CLUSTER_SYSTEM := "cluster.x-k8s.io/cluster-system".
Definition ANNOTATION_CAPI_CLUSTER_TAGS := "cluster.x-k8s.io/cluster-tags".
Definition ANNOTATION_LOCATION := "backstage.io/managed-by-location".
Definition ANNOTATION_ORIGIN_LOCATION := "backstage.io/managed-by-origin-location".
Definition ANNOTATION_KUBERNETES_API_SERVER := "kubernetes.io/api-server".
Definition ANNOTATION_KUBERNETES_API_SERVER_CA :=
  "kubernetes.io/api-server-certificate-authority".
Definition ANNOTATION_KUBERNETES_AUTH_PROVIDER := "kubernetes.io/auth-provider".

(** ** Data model (helpers/types.ts) *)

Record ObjectReference := {
  ref_kind : option string;
  ref_namespace : option string;
  ref_name : option string }.

Record ClusterSpec := {
  paused : option bool;
  controlPlaneRef : option ObjectReference;
  infrastructureRef : option ObjectReference }.

Record ObjectMeta := {
  meta_name : option string;
  meta_namespace : option string;
  meta_annotations : option (list (string * string)) }.

Record Cluster := {
  cl_metadata : option ObjectMeta;
  cl_spec : ClusterSpec }.

Record ProviderDefaults := {
  clusterOwner : option string;
  def_system : option string;
  def_lifecycle : option string;
  def_tags : option (list string) }.

(** Configuration values as read by Backstage's [Config]. *)
Inductive json : Type :=
| JString (s : string)
| JBool (b : bool)
| JNum (z : Z)
| JArr (xs : list json)
| JObj (kvs : list (string * json)).

(** The schedule is kept as the configuration subtree accepted by
    [readTaskScheduleDefinitionFromConfig]. *)
Definition TaskScheduleDefinition := json.

Record ProviderConfig := {
  pc_id : string;
  hubClusterName : string;
  pc_schedule : option TaskScheduleDefinition;
  pc_defaults : option ProviderDefaults }.

(** A kubeconfig as held by [@kubernetes/client-node]'s [KubeConfig]. *)
Record KubeCluster := {
  kc_name : string;
  server : string;
  caData : option string }.

Record KubeConfig := { kc_clusters : list KubeCluster }.

(** [new KubeConfig()]: every list starts empty. *)
Definition new_KubeConfig : KubeConfig := {| kc_clusters := [] |}.

Record V1Secret := {
  secret_type : option string;
  secret_data_value : option string }.

(** ** Catalog entities *)

(** An annotation value: a string, or [undefined] written under its key. *)
Inductive annval : Type := AStr (s : string) | AUndefined.

Record EntityMetadata := {
  md_name : option string;
  md_title : option string;
  md_description : option string;
  md_annotations : list (string * annval);
  md_tags : option (list string) }.

Record ResourceSpec := {
  rs_owner : option string;
  rs_type : string;
  rs_lifecycle : option string;
  rs_system : option string }.

Record ResourceEntity := {
  re_kind : string;
  re_apiVersion : string;
  re_metadata : EntityMetadata;
  re_spec : ResourceSpec }.

Record DeferredEntity := {
  de_entity : ResourceEntity;
  de_locationKey : string }.

Record EntityProviderMutation := {
  mut_type : string;
  mut_entities : list DeferredEntity }.

(** ** Reading the provider configuration (helpers/config.ts) *)

(** A [Config] node is the object it wraps. *)
Definition ConfigNode := list (string * json).

(** Backstage's dotted-path read: an undefined step stays undefined, a step
    through a value that is not an object throws. *)
Fixpoint read_path (v : option json) (parts : list string) : res (option json) :=
  match parts with
  | [] => Ok v
  | p :: ps =>
      match v with
      | None => Ok None
      | Some (JObj kvs) => read_path (obj_get kvs p) ps
      | Some _ => Err (ConfigError "value is not an object")
      end
  end.

Definition has (c : ConfigNode) (key : string) : bool :=
  match obj_get c key with Some _ => true | None => false end.

Definition getString (c : ConfigNode) (key : string) : res string :=
  match obj_get c key with
  | Some (JString s) => Ok s
  | Some _ => Err (ConfigError "expected a string")
  | None => Err (ConfigError "Missing required config value")
  end.

Definition getOptionalString (c : ConfigNode) (key : string) : res (option string) :=
  match obj_get c key with
  | Some (JString s) => Ok (Some s)
  | Some _ => Err (ConfigError "expected a string")
  | None => Ok None
  end.

Fixpoint json_strings (xs : list json) : option (list string) :=
  match xs with
  | [] => Some []
  | JString s :: xs' =>
      match json_strings xs' with Some ss => Some (s :: ss) | None => None end
  | _ :: _ => None
  end.

Definition getOptionalStringArray (c : ConfigNode) (key : string)
  : res (option (list string)) :=
  match obj_get c key with
  | Some (JArr xs) =>
      match json_strings xs with
      | Some ss => Ok (Some ss)
      | None => Err (ConfigError "expected a string array")
      end
  | Some _ => Err (ConfigError "expected a string array")
  | None => Ok None
  end.

Definition as_config (v : option json) : res (option ConfigNode) :=
  match v with
  | Some (JObj kvs) => Ok (Some kvs)
  | Some _ => Err (ConfigError "expected an object")
  | None => Ok None
  end.

Definition getOptionalConfigPath (c : ConfigNode) (path : list string)
  : res (option ConfigNode) :=
  let! v := read_path (Some (JObj c)) path in as_config v.

Definition getOptionalConfig (c : ConfigNode) (key : string) : res (option ConfigNode) :=
  getOptionalConfigPath c [key].

Definition getConfig (c : ConfigNode) (key : string) : res ConfigNode :=
  let! o := getOptionalConfig c key in
  match o with
  | Some n => Ok n
  | None => Err (ConfigError "Missing required config value")
  end.

(** [keys()]: the object's keys, each once, in first-occurrence order. *)
Fixpoint dedup_keys (seen : list string) (ks : list string) : list string :=
  match ks with
  | [] => []
  | k :: ks' =>
      if existsb (String.eqb k) seen then dedup_keys seen ks'
      else k :: dedup_keys (k :: seen) ks'
  end.

Definition keys (c : ConfigNode) : list string := dedup_keys [] (map fst c).

Definition DEFAULT_PROVIDER_ID := "default".

Definition parseDefaults (config : option ConfigNode) : res (option ProviderDefaults) :=
  match config with
  | None => Ok None
  | Some c =>
      let! owner := getOptionalString c "clusterOwner" in
      let! system := getOptionalString c "system" in
      let! lifecycle := getOptionalString c "lifecycle" in
      let! tags := getOptionalStringArray c "tags" in
      Ok (Some {| clusterOwner := owner; def_system := system;
                  def_lifecycle := lifecycle; def_tags := tags |})
  end.

Section ReadConfig.

(** The schedule reader of [@backstage/backend-tasks]. *)
Variable readTaskScheduleDefinitionFromConfig : ConfigNode -> res TaskScheduleDefinition.

Definition readProviderConfig (id : string) (config : ConfigNode) : res ProviderConfig :=
  let! hub := getString config "hubClusterName" in
  let! schedule :=
    (if has config "schedule"
     then let! sc := getConfig config "schedule" in
          let! d := readTaskScheduleDefinitionFromConfig sc in Ok (Some d)
     else Ok None) in
  let! dcfg := getOptionalConfig config "defaults" in
  let! defaults := parseDefaults dcfg in
  Ok {| pc_id := id; hubClusterName := hub; pc_schedule := schedule;
        pc_defaults := defaults |}.

Definition readProviderConfigs (config : ConfigNode) : res (list ProviderConfig) :=
  let! providersConfig := getOptionalConfigPath config ["catalog"; "providers"; "capi"] in
  match providersConfig with
  | None => Ok []
  | Some pc =>
      if has pc "hubClusterName" then
        let! one := readProviderConfig DEFAULT_PROVIDER_ID pc in Ok [one]
      else
        res_map (fun name =>
                   let! providerConfig := getConfig pc name in
                   readProviderConfig name providerConfig) (keys pc)
  end.

End ReadConfig.

(** ** The provider (CAPIClusterProvider.ts, helpers/secret.ts) *)

(** The observable world of a refresh: every [applyMutation] call the catalog
    connection received, in order, and every error written to the logger. *)
Record World := {
  applied : list EntityProviderMutation;
  error_log : list (string * error) }.

(** A state and error monad: an async method that may reject. *)
Definition M (A : Type) := World -> res A * World.

Definition ret {A} (a : A) : M A := fun w => (Ok a, w).

Definition bind {A B} (m : M A) (k : A -> M B) : M B :=
  fun w => match m w with
           | (Ok a, w') => k a w'
           | (Err e, w') => (Err e, w')
           end.

Notation "x <- m ;; k" := (bind m (fun x => k))
  (at level 61, m at next level, right associativity).

Definition throw {A} (e : error) : M A := fun w => (Err e, w).

Definition lift {A} (r : res A) : M A :=
  match r with Ok a => ret a | Err e => throw e end.

(** [try { m } catch (error) { h(error) }]. *)
Definition catch {A} (m : M A) (h : error -> M A) : M A :=
  fun w => match m w with
           | (Ok a, w') => (Ok a, w')
           | (Err e, w') => h e w'
           end.

Definition applyMutation (mu : EntityProviderMutation) : M unit :=
  fun w => (Ok tt, {| applied := applied w ++ [mu]; error_log := error_log w |}).

Definition logError (msg : string) (e : error) : M unit :=
  fun w => (Ok tt, {| applied := applied w; error_log := error_log w ++ [(msg, e)] |}).

(** The hub cluster as seen through its API clients. *)
Record HubApi := {
  (** [customObjectsClient.listClusterCustomObject('cluster.x-k8s.io',
      'v1beta1', 'clusters')]: the listed items, or the rejection. *)
  listClusterCustomObject : res (list Cluster);
  (** [client.readNamespacedSecret(name, namespace)]. *)
  readNamespacedSecret : string -> string -> res V1Secret }.

(** Modelled from the spec: [kubeApiResponseHandler] (helpers/utils, not in
    the sources) resolves to the response body of a successful call and
    propagates the error of a failed call unwrapped (4.3). *)
Definition kubeApiResponseHandler {A} (call : res A) : res A := call.

Definition getCAPIClusters (api : HubApi) : res (list Cluster) :=
  kubeApiResponseHandler (listClusterCustomObject api).

Record CAPIClusterProvider := {
  config : ProviderConfig;
  (** [this.connection] is set by [connect]. *)
  connected : bool }.

Definition getProviderName (p : CAPIClusterProvider) : string :=
  "CAPIClusterProvider:" ++ pc_id (config p).

Definition connect (p : CAPIClusterProvider) : CAPIClusterProvider :=
  {| config := config p; connected := true |}.

Definition annotation (c : Cluster) (key : string) : option string :=
  match cl_metadata c with
  | Some m =>
      match meta_annotations m with
      | Some anns => obj_get anns key
      | None => None
      end
  | None => None
  end.

Definition capiClusterProvider (c : Cluster) : string :=
  match infrastructureRef (cl_spec c) with
  | Some r => match ref_kind r with Some k => k | None => "" end
  | None => ""
  end.

Definition cluster_name (c : Cluster) : option string :=
  match cl_metadata c with Some m => meta_name m | None => None end.

Definition cluster_namespace (c : Cluster) : option string :=
  match cl_metadata c with Some m => meta_namespace m | None => None end.

Definition clusterName (c : Cluster) : string :=
  js_interp (cluster_namespace c) ++ "/" ++ js_interp (cluster_name c).

Record ClusterAnnotations := {
  ann_lifecycle : option string;
  ann_owner : option string;
  ann_description : option string;
  ann_system : option string;
  ann_tags : option (list string) }.

Definition clusterAnnotations (c : Cluster) : ClusterAnnotations :=
  {| ann_lifecycle := annotation c ANNOTATION_CAPI_CLUSTER_LIFECYCLE;
     ann_owner := annotation c ANNOTATION_CAPI_CLUSTER_OWNER;
     ann_description := annotation c ANNOTATION_CAPI_CLUSTER_DESCRIPTION;
     ann_system := annotation c ANNOTATION_CAPI_CLUSTER_SYSTEM;
     ann_tags := option_map (fun s => map trim (split_comma s))
                   (annotation c ANNOTATION_CAPI_CLUSTER_TAGS) |}.

(** What [kc.loadFromString] leaves in [kc]: the whole document, or, when
    it throws, whatever it had assigned to [kc] before the throw. *)
Inductive LoadOutcome : Type :=
| Loaded (kc : KubeConfig)
| LoadThrew (partial : KubeConfig).

Section Provider.

(** [Buffer.from(str, 'base64').toString('binary')]. *)
Variable decodeBase64 : string -> string.
(** [KubeConfig.loadFromString] run on a fresh [KubeConfig]. *)
Variable loadFromString : string -> LoadOutcome.

Definition decodeKubeConfigFromSecret (secret : V1Secret) : KubeConfig :=
  let decoded :=
    decodeBase64 (match secret_data_value secret with Some v => v | None => "" end) in
  match loadFromString decoded with
  | Loaded kc => kc
  | LoadThrew kc => kc      (* logger.info(`caught error ${err}`) *)
  end.

Definition getClusterKubeConfig (api : HubApi) (name namespace : string)
  : res KubeConfig :=
  let! body := readNamespacedSecret api name namespace in
  Ok (decodeKubeConfigFromSecret body).

(** One element of [clusterKubeConfigs]: the [.catch] turns a rejection into
    [undefined]. *)
Definition fetchKubeConfig (api : HubApi) (c : Cluster) : string * option KubeConfig :=
  let ns := js_or (cluster_namespace c) (Some "default") in
  let kubeConfig :=
    match getClusterKubeConfig api (js_interp (cluster_name c) ++ "-kubeconfig")
            (js_interp ns) with
    | Ok kc => Some kc
    | Err _ => None
    end in
  (clusterName c, kubeConfig).

(** [new Map(pairs).get(key)]: a later pair overrides an earlier one. *)
Fixpoint map_get {V} (pairs : list (string * V)) (key : string) : option V :=
  match pairs with
  | [] => None
  | (k, v) :: rest =>
      match map_get rest key with
      | Some v' => Some v'
      | None => if String.eqb key k then Some v else None
      end
  end.

Definition lookupKubeConfig (kubeConfigs : list (string * option KubeConfig))
  (key : string) : option KubeConfig :=
  match map_get kubeConfigs key with Some o => o | None => None end.

(** [clusterKubeConfig?.clusters[0]] followed by a property read: undefined
    when there is no kubeconfig, a TypeError when it has no cluster. *)
Definition firstKubeCluster (ckc : option KubeConfig) : res (option KubeCluster) :=
  match ckc with
  | None => Ok None
  | Some kc =>
      match kc_clusters kc with
      | c :: _ => Ok (Some c)
      | [] => Err (TypeError "Cannot read properties of undefined (reading 'server')")
      end
  end.

Definition serverValue (first : option KubeCluster) : annval :=
  match first with Some c => AStr (server c) | None => AUndefined end.

Definition caDataValue (first : option KubeCluster) : annval :=
  match first with
  | Some c => match caData c with Some s => AStr s | None => AUndefined end
  | None => AUndefined
  end.

(** The body of the [items.map] callback that builds one resource. *)
Definition toResource (p : CAPIClusterProvider)
  (kubeConfigs : list (string * option KubeConfig)) (c : Cluster)
  : res ResourceEntity :=
  let anns := clusterAnnotations c in
  let clusterKubeConfig := lookupKubeConfig kubeConfigs (clusterName c) in
  let defaults := pc_defaults (config p) in
  let! first := firstKubeCluster clusterKubeConfig in
  let annotations0 :=
    [(ANNOTATION_LOCATION, AStr (getProviderName p));
     (ANNOTATION_ORIGIN_LOCATION, AStr (getProviderName p));
     (ANNOTATION_CAPI_PROVIDER, AStr (capiClusterProvider c));
     (ANNOTATION_KUBERNETES_API_SERVER, serverValue first);
     (ANNOTATION_KUBERNETES_API_SERVER_CA, caDataValue first);
     (ANNOTATION_KUBERNETES_AUTH_PROVIDER, AStr "oidc")] in
  let annotations :=
    match clusterKubeConfig with
    | Some _ =>
        obj_set (obj_set (obj_set annotations0
          ANNOTATION_KUBERNETES_API_SERVER (serverValue first))
          ANNOTATION_KUBERNETES_API_SERVER_CA (caDataValue first))
          ANNOTATION_KUBERNETES_AUTH_PROVIDER (AStr "oidc")
    | None => annotations0
    end in
  Ok {| re_kind := "Resource";
        re_apiVersion := "backstage.io/v1beta1";
        re_metadata :=
          {| md_name := cluster_name c;
             md_title := cluster_name c;
             md_description := ann_description anns;
             md_annotations := annotations;
             md_tags := js_or_list (ann_tags anns)
                          (match defaults with Some d => def_tags d | None => None end) |};
        re_spec :=
          {| rs_owner := js_or (js_or (ann_owner anns)
                                  (match defaults with Some d => clusterOwner d | None => None end))
                               (Some "guest");
             rs_type := "kubernetes-cluster";
             rs_lifecycle := js_or (ann_lifecycle anns)
                               (match defaults with Some d => def_lifecycle d | None => None end);
             rs_system := js_or (ann_system anns)
                            (match defaults with Some d => def_system d | None => None end) |} |}.

Definition refresh (p : CAPIClusterProvider) (api : HubApi) : M unit :=
  if negb (connected p) then throw NotInitialized else
  clusters <- lift (getCAPIClusters api) ;;
  let kubeConfigs := map (fetchKubeConfig api) clusters in
  resources <- lift (res_map (toResource p kubeConfigs) clusters) ;;
  applyMutation
    {| mut_type := "full";
       mut_entities := map (fun e => {| de_entity := e;
                                         de_locationKey := getProviderName p |})
                           resources |}.

Definition taskId (p : CAPIClusterProvider) : string := getProviderName p ++ ":refresh".

(** The [fn] handed to [taskRunner.run] by [createScheduleFn]. *)
Definition scheduledRefresh (p : CAPIClusterProvider) (api : HubApi) : M unit :=
  catch (refresh p api)
        (fun e => logError (getProviderName p ++ " refresh failed") e).

End Provider.

(** ** Hub cluster lookup and API clients (helpers/config.ts, helpers/kubernetes.ts) *)

Fixpoint json_objects (xs : list json) : option (list ConfigNode) :=
  match xs with
  | [] => Some []
  | JObj kvs :: xs' =>
      match json_objects xs' with Some cs => Some (kvs :: cs) | None => None end
  | _ :: _ => None
  end.

Definition as_config_array (v : option json) : res (option (list ConfigNode)) :=
  match v with
  | Some (JArr xs) =>
      match json_objects xs with
      | Some cs => Ok (Some cs)
      | None => Err (ConfigError "expected an object array")
      end
  | Some _ => Err (ConfigError "expected an object array")
  | None => Ok None
  end.

Definition getConfigArrayPath (c : ConfigNode) (path : list string) : res (list ConfigNode) :=
  let! v := read_path (Some (JObj c)) path in
  let! o := as_config_array v in
  match o with
  | Some cs => Ok cs
  | None => Err (ConfigError "Missing required config value")
  end.

Definition getOptionalConfigArray (c : ConfigNode) (key : string)
  : res (option (list ConfigNode)) :=
  let! v := read_path (Some (JObj c)) [key] in as_config_array v.

Definition getOptionalBoolean (c : ConfigNode) (key : string) : res (option bool) :=
  match obj_get c key with
  | Some (JBool b) => Ok (Some b)
  | Some _ => Err (ConfigError "expected a boolean")
  | None => Ok None
  end.

(** [Array.prototype.find] with a predicate that may throw. *)
Fixpoint find_res {A} (p : A -> res bool) (xs : list A) : res (option A) :=
  match xs with
  | [] => Ok None
  | x :: xs' =>
      let! b := p x in if b then Ok (Some x) else find_res p xs'
  end.

Definition CLUSTERS_PATH := ["kubernetes"; "clusterLocatorMethods"].

(** [config.getConfigArray(CLUSTERS_PATH).flatMap(method =>
    method.getOptionalConfigArray('clusters') || [])]. *)
Definition locatorClusters (config : ConfigNode) : res (list ConfigNode) :=
  let! methods := getConfigArrayPath config CLUSTERS_PATH in
  let! lists := res_map (fun method =>
                  let! o := getOptionalConfigArray method "clusters" in
                  Ok (match o with Some cs => cs | None => [] end)) methods in
  Ok (concat lists).

Definition getCAPIClusterFromKubernetesConfig (hubName : string) (config : ConfigNode)
  : res ConfigNode :=
  let! clusters := locatorClusters config in
  let! cluster := find_res (fun listCluster =>
                    let! n := getString listCluster "name" in Ok (String.eqb n hubName))
                    clusters in
  match cluster with
  | Some c => Ok c
  | None => Err (ConfigError ("CAPI hub cluster " ++ hubName ++ " not defined in kubernetes config"))
  end.

Record ExplicitCluster := {
  ec_name : string;
  ec_server : string;
  ec_skipTLSVerify : bool;
  ec_caData : option string }.

Record TokenUser := { user_name : string; user_token : string }.

Record KubeContext := { ctx_name : string; ctx_user : string; ctx_cluster : string }.

(** The connection a client is built from: [kubeConfig.loadFromDefault()]
    (the ambient configuration), or [kubeConfig.loadFromOptions(...)]. *)
Inductive ClientConfig : Type :=
| DefaultKubeConfig
| ExplicitKubeConfig (cluster : ExplicitCluster) (user : TokenUser)
    (context : KubeContext) (currentContext : string).

(** [getCustomObjectsApi] / [newKubeConfigFromConfig]: the two build the same
    configuration; the first wraps it in a [CustomObjectsApi]. *)
Definition getCustomObjectsApi (clusterConfig : ConfigNode) : res ClientConfig :=
  let! clusterToken := getOptionalString clusterConfig "serviceAccountToken" in
  match js_or clusterToken None with
  | None => Ok DefaultKubeConfig
  | Some token =>
      let! name := getString clusterConfig "name" in
      let! url := getString clusterConfig "url" in
      let! skip := getOptionalBoolean clusterConfig "skipTLSVerify" in
      let! ca := getOptionalString clusterConfig "caData" in
      let cluster := {| ec_name := name; ec_server := url;
                        ec_skipTLSVerify := match skip with Some b => b | None => false end;
                        ec_caData := ca |} in
      let user := {| user_name := "backstage"; user_token := token |} in
      let context := {| ctx_name := ec_name cluster; ctx_user := user_name user;
                        ctx_cluster := ec_name cluster |} in
      Ok (ExplicitKubeConfig cluster user context (ctx_name context))
  end.

Definition clusterApiClient (hubClusterName : string) (config : ConfigNode) : res ClientConfig :=
  let! clusterConfig := getCAPIClusterFromKubernetesConfig hubClusterName config in
  getCustomObjectsApi clusterConfig.

(** ** Building providers ([CAPIClusterProvider.fromConfig]) *)

(** Which of [options.schedule] (a TaskRunner) and [options.scheduler] are given. *)
Record ProviderOptions := { opt_schedule : bool; opt_scheduler : bool }.

Inductive TaskRunnerSource : Type :=
| GivenRunner                                       (* options.schedule *)
| ScheduledRunner (d : TaskScheduleDefinition).     (* scheduler.createScheduledTaskRunner *)

Record ProviderInstance := {
  inst_provider : CAPIClusterProvider;
  inst_client : ClientConfig;
  inst_runner : TaskRunnerSource }.

Definition fromConfig (readSchedule : ConfigNode -> res TaskScheduleDefinition)
  (rootConfig : ConfigNode) (options : ProviderOptions) : res (list ProviderInstance) :=
  let! providerConfigs := readProviderConfigs readSchedule rootConfig in
  if negb (opt_schedule options || opt_scheduler options) then
    Err (ConfigError "Either schedule or scheduler must be provided.")
  else
    res_map (fun providerConfig =>
      match opt_schedule options, pc_schedule providerConfig with
      | false, None =>
          Err (ConfigError ("No schedule provided neither via code nor config for CAPIClusterProvider:"
                            ++ pc_id providerConfig ++ "."))
      | given, sched =>
          let taskRunner :=
            if given then GivenRunner
            else match sched with Some d => ScheduledRunner d | None => GivenRunner end in
          let! client := clusterApiClient (hubClusterName providerConfig) rootConfig in
          Ok {| inst_provider := {| config := providerConfig; connected := false |};
                inst_client := client;
                inst_runner := taskRunner |}
      end) providerConfigs.

(** ** The provider without kubeconfig secrets (the earlier CAPIClusterProvider) *)

Definition toResource_v1 (p : CAPIClusterProvider) (c : Cluster) : ResourceEntity :=
  let anns := clusterAnnotations c in
  let defaults := pc_defaults (config p) in
  {| re_kind := "Resource";
     re_apiVersion := "backstage.io/v1beta1";
     re_metadata :=
       {| md_name := cluster_name c;
          md_title := cluster_name c;
          md_description := ann_description anns;
          md_annotations :=
            [(ANNOTATION_LOCATION, AStr (getProviderName p));
             (ANNOTATION_ORIGIN_LOCATION, AStr (getProviderName p));
             (ANNOTATION_CAPI_PROVIDER, AStr (capiClusterProvider c))];
          md_tags := js_or_list (ann_tags anns)
                       (match defaults with Some d => def_tags d | None => None end) |};
     re_spec :=
       {| rs_owner := js_or (js_or (ann_owner anns)
                               (match defaults with Some d => clusterOwner d | None => None end))
                            (Some "guest");
          rs_type := "kubernetes-cluster";
          rs_lifecycle := js_or (ann_lifecycle anns)
                            (match defaults with Some d => def_lifecycle d | None => None end);
          rs_system := js_or (ann_system anns)
                         (match defaults with Some d => def_system d | None => None end) |} |}.

Definition refresh_v1 (p : CAPIClusterProvider) (api : HubApi) : M unit :=
  if negb (connected p) then throw NotInitialized else
  clusters <- lift (getCAPIClusters api) ;;
  let resources := map (toResource_v1 p) clusters in
  applyMutation
    {| mut_type := "full";
       mut_entities := map (fun e => {| de_entity := e;
                                         de_locationKey := getProviderName p |})
                           resources |}.

(** ** Listing the kubeconfig secrets of a namespace ([getClusterKubeConfigs]) *)

Definition CAPI_CLUSTER_SECRET_TYPE := "cluster.x-k8s.io/secret".

(** A listed secret with its [metadata.name]. *)
Record ListedSecret := { ls_name : option string; ls_secret : V1Secret }.

Definition is_capi_secret (s : ListedSecret) : bool :=
  String.eqb (match secret_type (ls_secret s) with Some t => t | None => "" end)
             CAPI_CLUSTER_SECRET_TYPE.

Definition secret_key (s : ListedSecret) : string :=
  match ls_name s with Some n => n | None => "unknown" end.

(** [listNamespacedSecret] gives [items]; the result is a [Map] (kept in
    insertion order, [set] on an existing key replaces its value). *)
Definition getClusterKubeConfigs (decode : string -> string) (load : string -> LoadOutcome)
  (listed : res (list ListedSecret)) : res (list (string * KubeConfig)) :=
  let! items := listed in
  let secrets := filter is_capi_secret items in
  Ok (fold_left (fun kubeConfigs s =>
                   obj_set kubeConfigs (secret_key s)
                     (decodeKubeConfigFromSecret decode load (ls_secret s)))
                secrets []).

(** ** The cluster status endpoint (capi-clusters-backend router.ts) *)

(** The status part of a CAPI Cluster as the router reads it. *)
Record ClusterStatusFields := {
  st_phase : option string;
  st_infrastructureReady : option bool;
  st_controlPlaneReady : option bool }.

Record RouterCluster := {
  rc_metadata : option ObjectMeta;
  rc_status : option ClusterStatusFields }.

Record ClusterStatus := {
  cs_name : string;
  cs_namespace : string;
  cs_cluster : string;
  cs_phase : option string;
  cs_controlPlaneReady : bool;
  cs_infrastructureReady : bool }.

(** [a ?? b]. *)
Definition nullish {A} (a : option A) (b : A) : A :=
  match a with Some x => x | None => b end.

Definition parseClusterStatus (sourceCluster : string) (cluster : RouterCluster) : ClusterStatus :=
  {| cs_name := nullish (match rc_metadata cluster with Some m => meta_name m | None => None end) "";
     cs_namespace :=
       nullish (match rc_metadata cluster with Some m => meta_namespace m | None => None end) "";
     cs_cluster := sourceCluster;
     cs_phase := match rc_status cluster with Some s => st_phase s | None => None end;
     cs_controlPlaneReady :=
       nullish (match rc_status cluster with Some s => st_controlPlaneReady s | None => None end) false;
     cs_infrastructureReady :=
       nullish (match rc_status cluster with Some s => st_infrastructureReady s | None => None end)
         false |}.

(** [GET /status]: the listed clusters' statuses, or the list call's error
    (handed to the error handler). *)
Definition getStatus (sourceClusterName : string) (listed : res (list RouterCluster))
  : res (list ClusterStatus) :=
  let! items := listed in
  Ok (map (parseClusterStatus sourceClusterName) items).

(** ** Properties of the embedding *)

Ltac inv H := inversion H; subst; clear H.

Definition capi_path := ["catalog"; "providers"; "capi"].

Definition default_of {A} (f : ProviderDefaults -> option A) (p : CAPIClusterProvider)
  : option A :=
  match pc_defaults (config p) with Some d => f d | None => None end.

(** What a successful mapping produces, field by field. *)
Lemma toResource_fields p kcs c e :
  toResource p kcs c = Ok e ->
  md_name (re_metadata e) = cluster_name c /\
  md_description (re_metadata e) = ann_description (clusterAnnotations c) /\
  md_tags (re_metadata e) = js_or_list (ann_tags (clusterAnnotations c)) (default_of def_tags p) /\
  rs_owner (re_spec e) =
    js_or (js_or (ann_owner (clusterAnnotations c)) (default_of clusterOwner p)) (Some "guest") /\
  rs_lifecycle (re_spec e) = js_or (ann_lifecycle (clusterAnnotations c)) (default_of def_lifecycle p) /\
  rs_system (re_spec e) = js_or (ann_system (clusterAnnotations c)) (default_of def_system p) /\
  obj_get (md_annotations (re_metadata e)) ANNOTATION_CAPI_PROVIDER = Some (AStr (capiClusterProvider c)).
Proof.
  unfold toResource, default_of.
  destruct (firstKubeCluster _) as [first|err]; simpl; intros H; inv H.
  destruct (lookupKubeConfig kcs (clusterName c)); simpl; repeat split; reflexivity.
Qed.

(** Without a kubeconfig for the cluster, the mapping never throws. *)
Lemma toResource_no_kubeconfig p kcs c :
  lookupKubeConfig kcs (clusterName c) = None ->
  exists e, toResource p kcs c = Ok e /\
    md_annotations (re_metadata e) =
      [(ANNOTATION_LOCATION, AStr (getProviderName p));
       (ANNOTATION_ORIGIN_LOCATION, AStr (getProviderName p));
       (ANNOTATION_CAPI_PROVIDER, AStr (capiClusterProvider c));
       (ANNOTATION_KUBERNETES_API_SERVER, AUndefined);
       (ANNOTATION_KUBERNETES_API_SERVER_CA, AUndefined);
       (ANNOTATION_KUBERNETES_AUTH_PROVIDER, AStr "oidc")].
Proof.
  intros H. unfold toResource. rewrite H. simpl. eexists; split; reflexivity.
Qed.

(** The only way the mapping throws is the TypeError of [clusters[0]]. *)
Lemma toResource_err p kcs c e :
  toResource p kcs c = Err e -> exists msg, e = TypeError msg.
Proof.
  unfold toResource, firstKubeCluster.
  destruct (lookupKubeConfig kcs (clusterName c)) as [kc|]; simpl; [|discriminate].
  destruct (kc_clusters kc); simpl; intros H; inv H; eauto.
Qed.

Lemma res_map_err {A B} (f : A -> res B) l e :
  res_map f l = Err e -> exists x, In x l /\ f x = Err e.
Proof.
  induction l as [|x l IH]; simpl; [discriminate|].
  destruct (f x) eqn:Hx; simpl.
  - destruct (res_map f l) eqn:Hl; simpl; [discriminate|].
    intros H; inv H. destruct (IH eq_refl) as [y [Hy Hfy]]; eauto.
  - intros H; inv H; eauto.
Qed.

Lemma res_map_not_ok {A B} (f : A -> res B) l x e :
  In x l -> f x = Err e -> exists e', res_map f l = Err e'.
Proof.
  induction l as [|y l IH]; simpl; [tauto|].
  intros [<-|Hin] Hx.
  - rewrite Hx; simpl; eauto.
  - destruct (f y); simpl; [|eauto].
    destruct (IH Hin Hx) as [e' He']; rewrite He'; simpl; eauto.
Qed.

Lemma res_map_ok_map {A B C} (f : A -> res B) (g : B -> C) (h : A -> C) l ys :
  (forall x y, f x = Ok y -> g y = h x) ->
  res_map f l = Ok ys -> map g ys = map h l.
Proof.
  intros Hfg. revert ys.
  induction l as [|x l IH]; simpl; intros ys H.
  - inv H; reflexivity.
  - destruct (f x) eqn:Hx; simpl in H; [|discriminate].
    destruct (res_map f l) eqn:Hl; simpl in H; inv H.
    simpl. rewrite (Hfg _ _ Hx), (IH _ eq_refl). reflexivity.
Qed.

Lemma map_get_last {V} (pre : list (string * V)) k v :
  map_get (pre ++ [(k, v)]) k = Some v.
Proof.
  induction pre as [|[k' v'] pre IH]; simpl.
  - rewrite String.eqb_refl. reflexivity.
  - rewrite IH. reflexivity.
Qed.

(** ** Entity mapping *)

(** C1 (failing input): when no kubeconfig was resolved for a cluster, the
    mapped entity still carries the auth-provider annotation, set to "oidc",
    and carries the API-server URL and CA annotation keys with the value
    undefined: the object literal writes all three unconditionally and the
    later [if (clusterKubeConfig)] block only rewrites them. *)
Theorem C1_annotations_without_credentials p kcs c :
  lookupKubeConfig kcs (clusterName c) = None ->
  exists e, toResource p kcs c = Ok e /\
    obj_get (md_annotations (re_metadata e)) ANNOTATION_KUBERNETES_AUTH_PROVIDER
      = Some (AStr "oidc") /\
    obj_get (md_annotations (re_metadata e)) ANNOTATION_KUBERNETES_API_SERVER
      = Some AUndefined /\
    obj_get (md_annotations (re_metadata e)) ANNOTATION_KUBERNETES_API_SERVER_CA
      = Some AUndefined.
Proof.
  intros H. destruct (toResource_no_kubeconfig p kcs c H) as [e [He Hann]].
  exists e. split; [exact He|]. rewrite Hann. repeat split; reflexivity.
Qed.

(** C5: a cluster without the lifecycle, owner, description, system and tags
    annotations, mapped by a provider without defaults, gets owner "guest"
    and leaves lifecycle, system, tags and description unset; in general the
    owner is the annotation, else the provider default, else "guest". *)
Theorem C5_no_annotations_no_defaults p kcs c e :
  toResource p kcs c = Ok e ->
  (annotation c ANNOTATION_CAPI_CLUSTER_LIFECYCLE = None ->
   annotation c ANNOTATION_CAPI_CLUSTER_OWNER = None ->
   annotation c ANNOTATION_CAPI_CLUSTER_DESCRIPTION = None ->
   annotation c ANNOTATION_CAPI_CLUSTER_SYSTEM = None ->
   annotation c ANNOTATION_CAPI_CLUSTER_TAGS = None ->
   pc_defaults (config p) = None ->
   rs_owner (re_spec e) = Some "guest" /\ rs_lifecycle (re_spec e) = None /\
   rs_system (re_spec e) = None /\ md_tags (re_metadata e) = None /\
   md_description (re_metadata e) = None) /\
  (forall o, annotation c ANNOTATION_CAPI_CLUSTER_OWNER = Some o -> o <> "" ->
   rs_owner (re_spec e) = Some o) /\
  (forall d, (forall o, annotation c ANNOTATION_CAPI_CLUSTER_OWNER = Some o -> o = "") ->
   default_of clusterOwner p = Some d -> d <> "" ->
   rs_owner (re_spec e) = Some d) /\
  ((forall o, annotation c ANNOTATION_CAPI_CLUSTER_OWNER = Some o -> o = "") ->
   (forall d, default_of clusterOwner p = Some d -> d = "") ->
   rs_owner (re_spec e) = Some "guest").
Proof.
  intros He.
  destruct (toResource_fields p kcs c e He)
    as [_ [Hdesc [Htags [Howner [Hlife [Hsys _]]]]]].
  rewrite Howner. cbn [ann_owner clusterAnnotations].
  split; [|split; [|split]].
  - intros Hl Ho Hd Hs Ht Hdef.
    unfold default_of in *; rewrite Hdef in *.
    rewrite Hlife, Hsys, Htags, Hdesc; cbn.
    rewrite Hl, Ho, Hd, Hs, Ht. repeat split; reflexivity.
  - intros o Ho Hne. rewrite Ho; cbn.
    apply String.eqb_neq in Hne. rewrite Hne; cbn. rewrite Hne. reflexivity.
  - intros d Hno Hd Hne.
    assert (Hstep : js_or (annotation c ANNOTATION_CAPI_CLUSTER_OWNER)
                          (default_of clusterOwner p) = Some d).
    { destruct (annotation c ANNOTATION_CAPI_CLUSTER_OWNER) as [o|]; cbn.
      - rewrite (Hno o eq_refl), Hd. reflexivity.
      - exact Hd. }
    rewrite Hstep; cbn. apply String.eqb_neq in Hne. rewrite Hne. reflexivity.
  - intros Hno Hnd.
    destruct (annotation c ANNOTATION_CAPI_CLUSTER_OWNER) as [o|]; cbn;
      [rewrite (Hno o eq_refl); cbn|];
      destruct (default_of clusterOwner p) as [d|]; cbn; try reflexivity;
      rewrite (Hnd d eq_refl); reflexivity.
Qed.

(** C6: a tags annotation "tag1, tag2,tag3" maps to the tags
    ["tag1"; "tag2"; "tag3"], whatever the provider-default tags are. *)
Theorem C6_tags_split_and_trimmed p kcs c e :
  annotation c ANNOTATION_CAPI_CLUSTER_TAGS = Some "tag1, tag2,tag3" ->
  toResource p kcs c = Ok e ->
  md_tags (re_metadata e) = Some ["tag1"; "tag2"; "tag3"].
Proof.
  intros Ht He.
  destruct (toResource_fields p kcs c e He) as [_ [_ [Htags _]]].
  rewrite Htags; cbn [ann_tags clusterAnnotations]. rewrite Ht. reflexivity.
Qed.

(** C9: when the infrastructure reference or its kind is absent, the
    provider-kind annotation is the empty string; it is computed by a total
    function, and a cluster without credentials always maps. *)
Theorem C9_provider_kind_absent p kcs c :
  (infrastructureRef (cl_spec c) = None \/
   exists r, infrastructureRef (cl_spec c) = Some r /\ ref_kind r = None) ->
  capiClusterProvider c = "" /\
  (forall e, toResource p kcs c = Ok e ->
     obj_get (md_annotations (re_metadata e)) ANNOTATION_CAPI_PROVIDER = Some (AStr "")) /\
  (lookupKubeConfig kcs (clusterName c) = None ->
   exists e, toResource p kcs c = Ok e /\
     obj_get (md_annotations (re_metadata e)) ANNOTATION_CAPI_PROVIDER = Some (AStr "")).
Proof.
  intros Hc.
  assert (Hk : capiClusterProvider c = "").
  { unfold capiClusterProvider.
    destruct Hc as [-> | [r [-> Hr]]]; [reflexivity|]. rewrite Hr. reflexivity. }
  split; [exact Hk|]. split.
  - intros e He. destruct (toResource_fields p kcs c e He) as [_ [_ [_ [_ [_ [_ H]]]]]].
    rewrite H, Hk. reflexivity.
  - intros Hn. destruct (toResource_no_kubeconfig p kcs c Hn) as [e [He Hann]].
    exists e. split; [exact He|]. rewrite Hann, Hk. reflexivity.
Qed.

(** C10: an owner, lifecycle or system annotation whose value is "" is
    treated as absent: the field falls through to the provider default, and
    the owner further to "guest". *)
Theorem C10_empty_annotation_falls_through p kcs c e :
  toResource p kcs c = Ok e ->
  (annotation c ANNOTATION_CAPI_CLUSTER_OWNER = Some "" ->
   rs_owner (re_spec e) = js_or (default_of clusterOwner p) (Some "guest")) /\
  (annotation c ANNOTATION_CAPI_CLUSTER_LIFECYCLE = Some "" ->
   rs_lifecycle (re_spec e) = default_of def_lifecycle p) /\
  (annotation c ANNOTATION_CAPI_CLUSTER_SYSTEM = Some "" ->
   rs_system (re_spec e) = default_of def_system p).
Proof.
  intros He.
  destruct (toResource_fields p kcs c e He) as [_ [_ [_ [Ho [Hl [Hs _]]]]]].
  cbn [ann_owner ann_lifecycle ann_system clusterAnnotations] in Ho, Hl, Hs.
  repeat split; intros Ha.
  - rewrite Ho, Ha. reflexivity.
  - rewrite Hl, Ha. reflexivity.
  - rewrite Hs, Ha. reflexivity.
Qed.

(** ** The refresh cycle *)

Definition fullMutation (p : CAPIClusterProvider) (resources : list ResourceEntity)
  : EntityProviderMutation :=
  {| mut_type := "full";
     mut_entities := map (fun e => {| de_entity := e; de_locationKey := getProviderName p |})
                         resources |}.

(** [refresh] unfolded: it either rejects leaving the world as it was, or
    submits exactly one full mutation. *)
Lemma refresh_eq decode load p api w :
  refresh decode load p api w =
  if connected p then
    match getCAPIClusters api with
    | Err e => (Err e, w)
    | Ok clusters =>
        match res_map (toResource p (map (fetchKubeConfig decode load api) clusters)) clusters with
        | Err e => (Err e, w)
        | Ok resources =>
            (Ok tt, {| applied := applied w ++ [fullMutation p resources];
                       error_log := error_log w |})
        end
    end
  else (Err NotInitialized, w).
Proof.
  unfold refresh. destruct (connected p); [|reflexivity]. simpl.
  unfold bind, lift. destruct (getCAPIClusters api); [|reflexivity].
  unfold ret. destruct (res_map _ _); reflexivity.
Qed.

Lemma scheduledRefresh_eq decode load p api w :
  scheduledRefresh decode load p api w =
  match refresh decode load p api w with
  | (Ok a, w') => (Ok a, w')
  | (Err e, w') =>
      (Ok tt, {| applied := applied w';
                 error_log := error_log w' ++ [((getProviderName p ++ " refresh failed")%string, e)] |})
  end.
Proof. reflexivity. Qed.

(** C2 (failing input): a kubeconfig secret that is read but whose payload
    does not load (the loader throws before assigning any cluster) makes the
    mapping of its cluster throw a TypeError on [clusters[0].server]; the whole
    cycle rejects and no mutation is submitted. *)
Theorem C2_decode_failure_aborts_cycle decode load p api pre c s w :
  connected p = true ->
  getCAPIClusters api = Ok (pre ++ [c]) ->
  readNamespacedSecret api (js_interp (cluster_name c) ++ "-kubeconfig")
    (js_interp (js_or (cluster_namespace c) (Some "default"))) = Ok s ->
  load (decode (match secret_data_value s with Some v => v | None => "" end))
    = LoadThrew new_KubeConfig ->
  (exists msg, fst (refresh decode load p api w) = Err (TypeError msg)) /\
  applied (snd (refresh decode load p api w)) = applied w /\
  applied (snd (scheduledRefresh decode load p api w)) = applied w.
Proof.
  intros Hcon Hlist Hread Hload.
  set (kcs := map (fetchKubeConfig decode load api) (pre ++ [c])).
  assert (Hk : lookupKubeConfig kcs (clusterName c) = Some new_KubeConfig).
  { unfold kcs, lookupKubeConfig. rewrite map_app. simpl.
    unfold fetchKubeConfig at 2, getClusterKubeConfig.
    rewrite Hread. simpl. unfold decodeKubeConfigFromSecret. rewrite Hload.
    rewrite map_get_last. reflexivity. }
  assert (Hc : exists e, toResource p kcs c = Err e).
  { unfold toResource. rewrite Hk. simpl. eauto. }
  destruct Hc as [e He].
  destruct (res_map_not_ok (toResource p kcs) (pre ++ [c]) c e
              (in_or_app pre [c] c (or_intror (or_introl eq_refl))) He) as [e' He'].
  destruct (res_map_err _ _ _ He') as [x [_ Hx]].
  destruct (toResource_err _ _ _ _ Hx) as [msg ->].
  rewrite scheduledRefresh_eq, refresh_eq, Hcon, Hlist. fold kcs. rewrite He'.
  simpl. eauto.
Qed.

(** C4: when the CAPI cluster list call fails, the cycle rejects without
    calling [applyMutation]; the scheduled task catches the error, logs it
    under the provider's name and resolves.  The scheduled task never
    rejects, whatever the cycle does. *)
Theorem C4_list_failure_no_mutation decode load p api w e :
  connected p = true ->
  getCAPIClusters api = Err e ->
  refresh decode load p api w = (Err e, w) /\
  scheduledRefresh decode load p api w =
    (Ok tt, {| applied := applied w;
               error_log := error_log w ++ [((getProviderName p ++ " refresh failed")%string, e)] |}) /\
  (forall api' w', fst (scheduledRefresh decode load p api' w') = Ok tt).
Proof.
  intros Hcon Hlist.
  assert (Hr : refresh decode load p api w = (Err e, w)).
  { rewrite refresh_eq, Hcon, Hlist. reflexivity. }
  split; [exact Hr|]. split.
  - rewrite scheduledRefresh_eq, Hr. reflexivity.
  - intros api' w'. rewrite scheduledRefresh_eq.
    destruct (refresh decode load p api' w') as [[[]|err] w'']; reflexivity.
Qed.

(** C7: in a successful cycle, exactly one mutation is submitted; its
    entries take [metadata.name] verbatim from the listed clusters, one entry
    per cluster in order (clusters sharing a name give entries sharing that
    name), and every entry has the location key "CAPIClusterProvider:<id>". *)
Theorem C7_names_and_location_key decode load p api clusters w w' :
  getCAPIClusters api = Ok clusters ->
  refresh decode load p api w = (Ok tt, w') ->
  exists m, applied w' = applied w ++ [m] /\
    mut_type m = "full" /\
    map (fun d => md_name (re_metadata (de_entity d))) (mut_entities m)
      = map cluster_name clusters /\
    Forall (fun d => de_locationKey d = ("CAPIClusterProvider:" ++ pc_id (config p))%string)
      (mut_entities m).
Proof.
  intros Hlist Hr. rewrite refresh_eq, Hlist in Hr.
  destruct (connected p); [|discriminate].
  destruct (res_map _ clusters) as [resources|err] eqn:Hres; inv Hr.
  exists (fullMutation p resources). split; [reflexivity|]. split; [reflexivity|]. split.
  - unfold fullMutation; simpl. rewrite map_map; simpl.
    apply (res_map_ok_map _ (fun e => md_name (re_metadata e)) cluster_name _ _
             (fun x y Hxy => proj1 (toResource_fields _ _ _ _ Hxy)) Hres).
  - unfold fullMutation; simpl. apply Forall_map, Forall_forall. reflexivity.
Qed.

(** C8: a successful list call with no clusters still submits one full
    mutation with no entities. *)
Theorem C8_empty_list_submits_empty_full decode load p api w :
  connected p = true ->
  getCAPIClusters api = Ok [] ->
  refresh decode load p api w =
    (Ok tt, {| applied := applied w ++ [{| mut_type := "full"; mut_entities := [] |}];
               error_log := error_log w |}).
Proof.
  intros Hcon Hlist. rewrite refresh_eq, Hcon, Hlist. reflexivity.
Qed.

(** ** Provider configuration *)

Lemma res_map_ok_forall2 {A B} (f : A -> res B) l ys :
  res_map f l = Ok ys -> Forall2 (fun x y => f x = Ok y) l ys.
Proof.
  revert ys. induction l as [|x l IH]; simpl; intros ys H.
  - inv H. constructor.
  - destruct (f x) eqn:Hx; simpl in H; [|discriminate].
    destruct (res_map f l) eqn:Hl; simpl in H; inv H.
    constructor; [exact Hx | apply IH; reflexivity].
Qed.

Lemma readProviderConfig_id r id cfg pc :
  readProviderConfig r id cfg = Ok pc -> pc_id pc = id.
Proof.
  unfold readProviderConfig.
  destruct (getString cfg "hubClusterName"); simpl; [|discriminate].
  destruct (if has cfg "schedule" then _ else _); simpl; [|discriminate].
  destruct (getOptionalConfig cfg "defaults"); simpl; [|discriminate].
  destruct (parseDefaults _); simpl; [|discriminate].
  intros H; inv H. reflexivity.
Qed.

(** C3: with no [catalog.providers.capi] node the result is the empty list;
    a node that has a [hubClusterName] field is the single provider
    "default"; otherwise every child key is a provider of that id, each read
    by [readProviderConfig], one per key in key order. *)
Theorem C3_readProviderConfigs_shape r cfg :
  (getOptionalConfigPath cfg capi_path = Ok None ->
   readProviderConfigs r cfg = Ok []) /\
  (forall node, getOptionalConfigPath cfg capi_path = Ok (Some node) ->
   has node "hubClusterName" = true ->
   readProviderConfigs r cfg = (let! one := readProviderConfig r "default" node in Ok [one]) /\
   (forall ps, readProviderConfigs r cfg = Ok ps ->
    exists one, ps = [one] /\ pc_id one = "default")) /\
  (forall node, getOptionalConfigPath cfg capi_path = Ok (Some node) ->
   has node "hubClusterName" = false ->
   forall ps, readProviderConfigs r cfg = Ok ps ->
   map pc_id ps = keys node /\
   Forall2 (fun k pc => exists n, getConfig node k = Ok n /\ readProviderConfig r k n = Ok pc)
     (keys node) ps).
Proof.
  unfold readProviderConfigs. fold capi_path.
  split; [|split].
  - intros H. rewrite H. reflexivity.
  - intros node H Hhub. rewrite H. simpl. rewrite Hhub. split; [reflexivity|].
    intros ps.
    destruct (readProviderConfig r DEFAULT_PROVIDER_ID node) as [one|] eqn:Hone;
      simpl; intros Hps; inv Hps.
    exists one. split; [reflexivity|]. exact (readProviderConfig_id _ _ _ _ Hone).
  - intros node H Hhub ps. rewrite H. simpl. rewrite Hhub. intros Hps.
    pose proof (res_map_ok_forall2 _ _ _ Hps) as HF.
    split.
    + clear Hps. induction HF as [|k pc ks ps' Hk _ IH]; [reflexivity|].
      simpl. rewrite IH. f_equal.
      destruct (getConfig node k) as [n|]; simpl in Hk; [|discriminate].
      exact (readProviderConfig_id _ _ _ _ Hk).
    + eapply Forall2_impl; [|exact HF]. simpl. intros k pc Hk.
      destruct (getConfig node k) as [n|]; simpl in Hk; [|discriminate].
      eauto.
Qed.

(** ** Concrete runs *)

Definition mk_cluster (name ns : string) (anns : list (string * string))
  (infra : option ObjectReference) : Cluster :=
  {| cl_metadata := Some {| meta_name := Some name; meta_namespace := Some ns;
                            meta_annotations := Some anns |};
     cl_spec := {| paused := None; controlPlaneRef := None; infrastructureRef := infra |} |}.

Definition aws_ref : option ObjectReference :=
  Some {| ref_kind := Some "AWSManagedCluster"; ref_namespace := None;
          ref_name := Some "test-cluster" |}.

Definition cluster1 : Cluster :=
  mk_cluster "cluster1" "clusters" [(ANNOTATION_CAPI_CLUSTER_LIFECYCLE, "production")] aws_ref.

Definition provider_of (defaults : option ProviderDefaults) : CAPIClusterProvider :=
  {| config := {| pc_id := "default"; hubClusterName := "cluster1"; pc_schedule := None;
                  pc_defaults := defaults |};
     connected := true |}.

Definition team_defaults : ProviderDefaults :=
  {| clusterOwner := Some "group:test-team"; def_system := Some "test-system";
     def_lifecycle := Some "staging"; def_tags := Some ["imported"; "capi"] |}.

(** A hub whose kubeconfig secrets are all missing (404). *)
Definition hub_no_secrets (items : res (list Cluster)) : HubApi :=
  {| listClusterCustomObject := items;
     readNamespacedSecret := fun _ _ => Err (ApiError "404 Not Found") |}.

(** A hub whose kubeconfig secrets exist but hold a payload that does not load. *)
Definition hub_bad_secret (items : list Cluster) : HubApi :=
  {| listClusterCustomObject := Ok items;
     readNamespacedSecret := fun _ _ =>
       Ok {| secret_type := Some "cluster.x-k8s.io/secret";
             secret_data_value := Some "bm90OiBbdmFsaWQ=" |} |}.

Definition decode_id (s : string) : string := s.
Definition load_throws (_ : string) : LoadOutcome := LoadThrew new_KubeConfig.

Definition world0 : World := {| applied := []; error_log := [] |}.

Definition schedule_reader (_ : ConfigNode) : res TaskScheduleDefinition := Ok (JObj []).

Definition multi_config : ConfigNode :=
  [("catalog", JObj [("providers", JObj [("capi", JObj
     [("default", JObj [("hubClusterName", JString "default")]);
      ("cluster1", JObj [("hubClusterName", JString "eu-cluster");
                         ("defaults", JObj [("clusterOwner", JString "group:team-notso")])])])])])].

Definition multi_node : ConfigNode :=
  match getOptionalConfigPath multi_config capi_path with
  | Ok (Some n) => n
  | _ => []
  end.

Definition multi_result : list ProviderConfig :=
  match readProviderConfigs schedule_reader multi_config with Ok ps => ps | Err _ => [] end.

Definition kcs_of (api : HubApi) (items : list Cluster) :=
  map (fetchKubeConfig decode_id load_throws api) items.

Lemma C1_witness :
  lookupKubeConfig (kcs_of (hub_no_secrets (Ok [cluster1])) [cluster1]) (clusterName cluster1) = None /\
  exists e, toResource (provider_of (Some team_defaults))
              (kcs_of (hub_no_secrets (Ok [cluster1])) [cluster1]) cluster1 = Ok e /\
    obj_get (md_annotations (re_metadata e)) ANNOTATION_KUBERNETES_AUTH_PROVIDER
      = Some (AStr "oidc") /\
    obj_get (md_annotations (re_metadata e)) ANNOTATION_KUBERNETES_API_SERVER
      = Some AUndefined /\
    obj_get (md_annotations (re_metadata e)) ANNOTATION_KUBERNETES_API_SERVER_CA
      = Some AUndefined.
Proof.
  split; [reflexivity|].
  apply C1_annotations_without_credentials. reflexivity.
Defined.

Lemma C2_witness :
  (exists msg, fst (refresh decode_id load_throws (provider_of None)
                      (hub_bad_secret [cluster1]) world0) = Err (TypeError msg)) /\
  applied (snd (refresh decode_id load_throws (provider_of None)
                  (hub_bad_secret [cluster1]) world0)) = applied world0 /\
  applied (snd (scheduledRefresh decode_id load_throws (provider_of None)
                  (hub_bad_secret [cluster1]) world0)) = applied world0.
Proof.
  apply (C2_decode_failure_aborts_cycle decode_id load_throws (provider_of None)
           (hub_bad_secret [cluster1]) [] cluster1
           {| secret_type := Some "cluster.x-k8s.io/secret";
              secret_data_value := Some "bm90OiBbdmFsaWQ=" |} world0);
    reflexivity.
Defined.

Lemma C3_witness :
  getOptionalConfigPath multi_config capi_path = Ok (Some multi_node) /\
  has multi_node "hubClusterName" = false /\
  readProviderConfigs schedule_reader multi_config = Ok multi_result /\
  map pc_id multi_result = keys multi_node /\
  Forall2 (fun k pc => exists n, getConfig multi_node k = Ok n /\
                                 readProviderConfig schedule_reader k n = Ok pc)
    (keys multi_node) multi_result.
Proof.
  split; [reflexivity|]. split; [reflexivity|]. split; [reflexivity|].
  apply (proj2 (proj2 (C3_readProviderConfigs_shape schedule_reader multi_config))
           multi_node); reflexivity.
Defined.

Lemma C4_witness :
  getCAPIClusters (hub_no_secrets (Err (ApiError "connection refused")))
    = Err (ApiError "connection refused") /\
  refresh decode_id load_throws (provider_of None)
    (hub_no_secrets (Err (ApiError "connection refused"))) world0
    = (Err (ApiError "connection refused"), world0) /\
  scheduledRefresh decode_id load_throws (provider_of None)
    (hub_no_secrets (Err (ApiError "connection refused"))) world0 =
    (Ok tt, {| applied := [];
               error_log := [("CAPIClusterProvider:default refresh failed",
                              ApiError "connection refused")] |}).
Proof.
  split; [reflexivity|].
  destruct (C4_list_failure_no_mutation decode_id load_throws (provider_of None)
              (hub_no_secrets (Err (ApiError "connection refused"))) world0
              (ApiError "connection refused") eq_refl eq_refl) as [H1 [H2 _]].
  split; [exact H1 | exact H2].
Defined.

Definition dup_clusters : list Cluster :=
  [mk_cluster "dup" "team-a" [] aws_ref; mk_cluster "dup" "team-b" [] None].

Lemma C7_witness :
  exists m, applied (snd (refresh decode_id load_throws (provider_of None)
                            (hub_no_secrets (Ok dup_clusters)) world0))
              = applied world0 ++ [m] /\
    mut_type m = "full" /\
    map (fun d => md_name (re_metadata (de_entity d))) (mut_entities m)
      = [Some "dup"; Some "dup"] /\
    Forall (fun d => de_locationKey d = "CAPIClusterProvider:default") (mut_entities m).
Proof.
  apply (C7_names_and_location_key decode_id load_throws (provider_of None)
           (hub_no_secrets (Ok dup_clusters)) dup_clusters world0); reflexivity.
Defined.

Lemma C8_witness :
  refresh decode_id load_throws (provider_of None) (hub_no_secrets (Ok [])) world0 =
    (Ok tt, {| applied := [{| mut_type := "full"; mut_entities := [] |}];
               error_log := [] |}).
Proof.
  apply (C8_empty_list_submits_empty_full decode_id load_throws (provider_of None)
           (hub_no_secrets (Ok [])) world0); reflexivity.
Defined.

Definition bare_cluster : Cluster := mk_cluster "bare" "default" [] aws_ref.

Lemma C5_witness :
  exists e, toResource (provider_of None) [] bare_cluster = Ok e /\
    rs_owner (re_spec e) = Some "guest" /\ rs_lifecycle (re_spec e) = None /\
    rs_system (re_spec e) = None /\ md_tags (re_metadata e) = None /\
    md_description (re_metadata e) = None.
Proof.
  eexists. split; [reflexivity|].
  apply (proj1 (C5_no_annotations_no_defaults (provider_of None) [] bare_cluster _ eq_refl));
    reflexivity.
Defined.

Definition tagged_cluster : Cluster :=
  mk_cluster "tagged" "clusters" [(ANNOTATION_CAPI_CLUSTER_TAGS, "tag1, tag2,tag3")] aws_ref.

Lemma C6_witness :
  exists e, toResource (provider_of (Some team_defaults)) [] tagged_cluster = Ok e /\
    md_tags (re_metadata e) = Some ["tag1"; "tag2"; "tag3"].
Proof.
  eexists. split; [reflexivity|].
  apply (C6_tags_split_and_trimmed (provider_of (Some team_defaults)) [] tagged_cluster);
    reflexivity.
Defined.

Definition kindless_cluster : Cluster :=
  mk_cluster "kindless" "clusters" []
    (Some {| ref_kind := None; ref_namespace := None; ref_name := Some "infra" |}).

Lemma C9_witness :
  capiClusterProvider kindless_cluster = "" /\
  exists e, toResource (provider_of None) [] kindless_cluster = Ok e /\
    obj_get (md_annotations (re_metadata e)) ANNOTATION_CAPI_PROVIDER = Some (AStr "").
Proof.
  destruct (C9_provider_kind_absent (provider_of None) [] kindless_cluster
              (or_intror (ex_intro _ _ (conj eq_refl eq_refl)))) as [H1 [_ H3]].
  split; [exact H1 | apply H3; reflexivity].
Defined.

Definition empty_annotated_cluster : Cluster :=
  mk_cluster "blank" "clusters"
    [(ANNOTATION_CAPI_CLUSTER_OWNER, ""); (ANNOTATION_CAPI_CLUSTER_LIFECYCLE, "");
     (ANNOTATION_CAPI_CLUSTER_SYSTEM, "")] aws_ref.

Lemma C10_witness :
  exists e, toResource (provider_of (Some team_defaults)) [] empty_annotated_cluster = Ok e /\
    rs_owner (re_spec e) = Some "group:test-team" /\
    rs_lifecycle (re_spec e) = Some "staging" /\
    rs_system (re_spec e) = Some "test-system".
Proof.
  eexists. split; [reflexivity|].
  destruct (C10_empty_annotation_falls_through (provider_of (Some team_defaults)) []
              empty_annotated_cluster _ eq_refl) as [Ho [Hl Hs]].
  split; [apply Ho; reflexivity|]. split; [apply Hl; reflexivity | apply Hs; reflexivity].
Defined.

(** ** Hub cluster lookup and API clients *)

Lemma find_res_first {A} (p : A -> res bool) pre x post :
  Forall (fun y => p y = Ok false) pre -> p x = Ok true ->
  find_res p (pre ++ x :: post) = Ok (Some x).
Proof.
  intros Hpre Hx. induction Hpre as [|y pre Hy _ IH]; simpl.
  - rewrite Hx. reflexivity.
  - rewrite Hy. simpl. exact IH.
Qed.

Lemma find_res_first_err {A} (p : A -> res bool) pre x post e :
  Forall (fun y => p y = Ok false) pre -> p x = Err e ->
  find_res p (pre ++ x :: post) = Err e.
Proof.
  intros Hpre Hx. induction Hpre as [|y pre Hy _ IH]; simpl.
  - rewrite Hx. reflexivity.
  - rewrite Hy. simpl. exact IH.
Qed.

Lemma find_res_none {A} (p : A -> res bool) xs :
  Forall (fun y => p y = Ok false) xs -> find_res p xs = Ok None.
Proof.
  intros H. induction H as [|y xs Hy _ IH]; simpl; [reflexivity|].
  rewrite Hy. exact IH.
Qed.

Definition named_other (hub : string) (c : ConfigNode) : Prop :=
  exists n, getString c "name" = Ok n /\ n <> hub.

Lemma named_other_pred hub c :
  named_other hub c ->
  (let! n := getString c "name" in Ok (String.eqb n hub)) = Ok false.
Proof.
  intros [n [Hn Hne]]. rewrite Hn. simpl.
  apply String.eqb_neq in Hne. rewrite Hne. reflexivity.
Qed.





(** ** Building providers *)

Lemma res_map_first_err {A B} (f : A -> res B) pre x post e :
  Forall (fun y => exists z, f y = Ok z) pre -> f x = Err e ->
  res_map f (pre ++ x :: post) = Err e.
Proof.
  intros Hpre Hx. induction Hpre as [|y pre [z Hz] _ IH]; simpl.
  - rewrite Hx. reflexivity.
  - rewrite Hz. simpl. rewrite IH. reflexivity.
Qed.




Definition instance_of (root : ConfigNode) (options : ProviderOptions)
  (pc : ProviderConfig) (inst : ProviderInstance) : Prop :=
  config (inst_provider inst) = pc /\
  connected (inst_provider inst) = false /\
  clusterApiClient (hubClusterName pc) root = Ok (inst_client inst) /\
  (opt_schedule options = true -> inst_runner inst = GivenRunner) /\
  (opt_schedule options = false ->
   exists d, pc_schedule pc = Some d /\ inst_runner inst = ScheduledRunner d).

(** A successful [fromConfig] builds one unconnected provider per provider
    configuration, in order, each with the client of its hub cluster and with
    the given task runner, or else one made from its own schedule (which it
    therefore has). *)
Theorem fromConfig_instances r root options pcs insts :
  readProviderConfigs r root = Ok pcs ->
  fromConfig r root options = Ok insts ->
  Forall2 (instance_of root options) pcs insts.
Proof.
  intros Hr Hf. unfold fromConfig in Hf. rewrite Hr in Hf. simpl in Hf.
  destruct (negb (opt_schedule options || opt_scheduler options)); [discriminate|].
  apply res_map_ok_forall2 in Hf.
  eapply Forall2_impl; [|exact Hf]. clear Hf. intros pc inst H.
  unfold instance_of.
  destruct (opt_schedule options) eqn:Hs; destruct (pc_schedule pc) as [d|] eqn:Hd;
    simpl in H; try discriminate;
    (destruct (clusterApiClient (hubClusterName pc) root) as [cl|] eqn:Hc;
     simpl in H; [|discriminate]); inv H; simpl;
    (split; [reflexivity|]); (split; [reflexivity|]); (split; [first [exact Hc | reflexivity]|]);
    split; intros Hx; try congruence; eauto.
Qed.


(** ** The refresh cycle, further *)




(** For a cluster without a resolved kubeconfig, the current mapping equals
    the earlier one except that three annotations are appended: the API
    server and its CA written as undefined, and the auth provider "oidc". *)
Theorem toResource_extends_v1 p kcs c :
  lookupKubeConfig kcs (clusterName c) = None ->
  let v1 := toResource_v1 p c in
  toResource p kcs c =
    Ok {| re_kind := re_kind v1; re_apiVersion := re_apiVersion v1;
          re_metadata :=
            {| md_name := md_name (re_metadata v1);
               md_title := md_title (re_metadata v1);
               md_description := md_description (re_metadata v1);
               md_annotations := md_annotations (re_metadata v1) ++
                 [(ANNOTATION_KUBERNETES_API_SERVER, AUndefined);
                  (ANNOTATION_KUBERNETES_API_SERVER_CA, AUndefined);
                  (ANNOTATION_KUBERNETES_AUTH_PROVIDER, AStr "oidc")];
               md_tags := md_tags (re_metadata v1) |};
          re_spec := re_spec v1 |}.
Proof. intros H. unfold toResource. rewrite H. reflexivity. Qed.

Definition kubeconfig_usable (kcs : list (string * option KubeConfig)) (c : Cluster) : Prop :=
  match lookupKubeConfig kcs (clusterName c) with
  | Some kc => kc_clusters kc <> []
  | None => True
  end.

(** Once the list call succeeds, a refresh submits its mutation exactly when
    every listed cluster's kubeconfig is either unresolved or names at least
    one cluster; one kubeconfig without clusters fails the whole cycle. *)
Theorem refresh_succeeds_iff decode load p api w clusters :
  connected p = true ->
  getCAPIClusters api = Ok clusters ->
  fst (refresh decode load p api w) = Ok tt <->
  Forall (kubeconfig_usable (map (fetchKubeConfig decode load api) clusters)) clusters.
Proof.
  intros Hc Hl. rewrite refresh_eq, Hc, Hl.
  set (kcs := map (fetchKubeConfig decode load api) clusters).
  assert (Hok : forall c, (exists e, toResource p kcs c = Ok e) <-> kubeconfig_usable kcs c).
  { intros c. unfold toResource, kubeconfig_usable, firstKubeCluster.
    destruct (lookupKubeConfig kcs (clusterName c)) as [kc|].
    - destruct (kc_clusters kc); simpl.
      + split; [intros [e He]; discriminate | intros H; congruence].
      + split; [intros _; discriminate | intros _; eauto].
    - simpl. split; eauto. }
  assert (Hmap : forall l, (exists rs, res_map (toResource p kcs) l = Ok rs) <->
                           Forall (kubeconfig_usable kcs) l).
  { induction l as [|x l IH]; simpl.
    - split; eauto.
    - split.
      + intros [rs Hrs].
        destruct (toResource p kcs x) eqn:Hx; simpl in Hrs; [|discriminate].
        destruct (res_map (toResource p kcs) l) eqn:Hl'; simpl in Hrs; [|discriminate].
        constructor; [apply Hok; eauto | apply IH; eauto].
      + intros HF. inv HF.
        destruct (proj2 (Hok x) H1) as [e He]. destruct (proj2 IH H2) as [rs Hrs].
        rewrite He, Hrs. simpl. eauto. }
  rewrite <- Hmap. destruct (res_map (toResource p kcs) clusters); simpl.
  - split; eauto.
  - split; [discriminate | intros [rs Hrs]; discriminate].
Qed.

(** ** Tags annotation *)

Fixpoint count_commas (s : string) : nat :=
  match s with
  | EmptyString => 0
  | String c s' => (if Ascii.eqb c "," then 1 else 0) + count_commas s'
  end.

(** A string with no white space at either end. *)
Definition trimmed (t : string) : Prop :=
  (forall c rest, list_ascii_of_string t = c :: rest -> is_js_space c = false) /\
  (forall c init, list_ascii_of_string t = init ++ [c] -> is_js_space c = false).

Lemma split_comma_aux_length s cur :
  length (split_comma_aux s cur) = S (count_commas s).
Proof.
  revert cur. induction s as [|c s IH]; intros cur; simpl; [reflexivity|].
  destruct (Ascii.eqb c ","); simpl; rewrite IH; reflexivity.
Qed.

Lemma drop_space_head l c rest :
  drop_space l = c :: rest -> is_js_space c = false.
Proof.
  induction l as [|x l IH]; simpl; [discriminate|].
  destruct (is_js_space x) eqn:Hx; [exact IH|]. intros H; inv H. exact Hx.
Qed.

Lemma drop_space_suffix l : exists p, l = p ++ drop_space l.
Proof.
  induction l as [|x l [p Hp]]; simpl; [exists []; reflexivity|].
  destruct (is_js_space x); [exists (x :: p); simpl; congruence | exists []; reflexivity].
Qed.

Lemma trim_trimmed s : trimmed (trim s).
Proof.
  unfold trimmed, trim. rewrite list_ascii_of_string_of_list_ascii.
  set (l1 := drop_space (list_ascii_of_string s)).
  destruct (drop_space_suffix (rev l1)) as [p Hp].
  set (d := drop_space (rev l1)) in *.
  split.
  - intros c rest Hr.
    assert (Hl1 : l1 = rev d ++ rev p).
    { rewrite <- rev_app_distr, <- Hp, rev_involutive. reflexivity. }
    rewrite Hr in Hl1. simpl in Hl1.
    exact (drop_space_head _ c (rest ++ rev p) Hl1).
  - intros c init Hr.
    assert (Hd : d = c :: rev init).
    { rewrite <- (rev_involutive d), Hr, rev_app_distr. reflexivity. }
    exact (drop_space_head _ _ _ Hd).
Qed.

(** The tags annotation yields one tag per comma-separated field (empty
    fields included), and no tag begins or ends with white space. *)
Theorem clusterAnnotations_tags c ts :
  ann_tags (clusterAnnotations c) = Some ts ->
  exists s, annotation c ANNOTATION_CAPI_CLUSTER_TAGS = Some s /\
    length ts = S (count_commas s) /\ Forall trimmed ts.
Proof.
  simpl. destruct (annotation c ANNOTATION_CAPI_CLUSTER_TAGS) as [s|]; simpl;
    [|discriminate].
  intros H; inv H. exists s. split; [reflexivity|]. split.
  - rewrite length_map. apply split_comma_aux_length.
  - apply Forall_map, Forall_forall. intros t _. apply trim_trimmed.
Qed.

(** ** The kubeconfig map of a namespace *)

Lemma obj_get_set {A} (m : list (string * A)) k k' v :
  obj_get (obj_set m k v) k' = if String.eqb k' k then Some v else obj_get m k'.
Proof.
  induction m as [|[k0 v0] m IH]; simpl; [reflexivity|].
  destruct (String.eqb k k0) eqn:Hk; simpl.
  - apply String.eqb_eq in Hk. subst k0.
    destruct (String.eqb k' k); reflexivity.
  - rewrite IH. destruct (String.eqb k' k0) eqn:Hk0; [|reflexivity].
    destruct (String.eqb k' k) eqn:Hk'; [|reflexivity].
    apply String.eqb_eq in Hk0, Hk'. subst. rewrite String.eqb_refl in Hk. discriminate.
Qed.

Section FoldSet.
Context {S A : Type} (key : S -> string) (f : S -> A).

Definition fold_set (l : list S) (m : list (string * A)) : list (string * A) :=
  fold_left (fun acc s => obj_set acc (key s) (f s)) l m.

Lemma fold_set_other l m k :
  Forall (fun s => key s <> k) l -> obj_get (fold_set l m) k = obj_get m k.
Proof.
  unfold fold_set. revert m. induction l as [|s l IH]; intros m H; simpl; [reflexivity|].
  inv H. rewrite IH by assumption. rewrite obj_get_set.
  destruct (String.eqb k (key s)) eqn:He; [|reflexivity].
  apply String.eqb_eq in He. congruence.
Qed.

Lemma fold_set_last pre s post m :
  Forall (fun s' => key s' <> key s) post ->
  obj_get (fold_set (pre ++ s :: post) m) (key s) = Some (f s).
Proof.
  intros H. unfold fold_set. rewrite fold_left_app. simpl.
  fold (fold_set post (obj_set (fold_left (fun acc s => obj_set acc (key s) (f s)) pre m)
                          (key s) (f s))).
  rewrite fold_set_other by exact H. rewrite obj_get_set, String.eqb_refl. reflexivity.
Qed.

End FoldSet.

Lemma Forall_filter_or {A} (P : A -> Prop) (b : A -> bool) l :
  Forall (fun x => b x = false \/ P x) l -> Forall P (filter b l).
Proof.
  induction 1 as [|x l [Hx|Hx] _ IH]; simpl; [constructor| |].
  - rewrite Hx. exact IH.
  - destruct (b x); [constructor|]; assumption.
Qed.

(** The kubeconfig map of a namespace holds, under a secret's name, the
    kubeconfig decoded from the last secret of the cluster-secret type with
    that name; a name carried only by secrets of other types is absent. A
    failing list call rejects the whole map. *)
Theorem getClusterKubeConfigs_lookup decode load items m k :
  getClusterKubeConfigs decode load (Ok items) = Ok m ->
  (Forall (fun s => is_capi_secret s = false \/ secret_key s <> k) items ->
   obj_get m k = None) /\
  (forall pre s post, items = pre ++ s :: post ->
   is_capi_secret s = true -> secret_key s = k ->
   Forall (fun s' => is_capi_secret s' = false \/ secret_key s' <> k) post ->
   obj_get m k = Some (decodeKubeConfigFromSecret decode load (ls_secret s))).
Proof.
  unfold getClusterKubeConfigs. simpl. intros H. inv H. split.
  - intros Hall.
    exact (fold_set_other secret_key (fun s => decodeKubeConfigFromSecret decode load (ls_secret s))
             _ [] k (Forall_filter_or _ _ _ Hall)).
  - intros pre s post -> Hs Hk Hpost. subst k.
    rewrite filter_app. simpl. rewrite Hs.
    exact (fold_set_last secret_key (fun s => decodeKubeConfigFromSecret decode load (ls_secret s))
             _ s _ [] (Forall_filter_or _ _ _ Hpost)).
Qed.

(** ** The status endpoint *)


(** ** Reading the provider configuration, further *)

Lemma obj_get_insert {A} (a extra b : list (string * A)) k :
  Forall (fun kv => fst kv <> k) extra ->
  obj_get (a ++ extra ++ b) k = obj_get (a ++ b) k.
Proof.
  intros H. induction a as [|[k0 v0] a IH]; simpl.
  - induction H as [|[k1 v1] extra Hk _ IH]; simpl; [reflexivity|].
    destruct (String.eqb k k1) eqn:E; [|exact IH].
    apply String.eqb_eq in E. simpl in Hk. congruence.
  - destruct (String.eqb k k0); [reflexivity|exact IH].
Qed.

Lemma readProviderConfig_reads r id n1 n2 :
  obj_get n1 "hubClusterName" = obj_get n2 "hubClusterName" ->
  obj_get n1 "schedule" = obj_get n2 "schedule" ->
  obj_get n1 "defaults" = obj_get n2 "defaults" ->
  readProviderConfig r id n1 = readProviderConfig r id n2.
Proof.
  intros H1 H2 H3.
  unfold readProviderConfig, getString, has, getConfig, getOptionalConfig, getOptionalConfigPath.
  cbn [read_path]. rewrite H1, H2, H3. reflexivity.
Qed.

(** A provider's configuration reads only [hubClusterName], [schedule] and
    [defaults]: entries under any other key, such as a
    [defaultClusterOwner], inserted anywhere, change nothing. *)
Theorem readProviderConfig_ignores_other_keys r id a extra b :
  Forall (fun kv => fst kv <> "hubClusterName" /\ fst kv <> "schedule" /\
                    fst kv <> "defaults") extra ->
  readProviderConfig r id (a ++ extra ++ b) = readProviderConfig r id (a ++ b).
Proof.
  intros H. apply readProviderConfig_reads; apply obj_get_insert;
    (eapply Forall_impl; [|exact H]); cbv beta; tauto.
Qed.


(** ** Concrete runs of the properties above *)

Definition locator_entry (name : option string) (url : string) (token : option string)
  : json :=
  JObj ((match name with Some n => [("name", JString n)] | None => [] end) ++
        [("url", JString url)] ++
        (match token with Some t => [("serviceAccountToken", JString t)] | None => [] end)).

Definition kube_section (entries : list json) : ConfigNode :=
  [("kubernetes", JObj [("clusterLocatorMethods",
     JArr [JObj [("type", JString "config"); ("clusters", JArr entries)]])])].

Definition other_entry : ConfigNode :=
  [("name", JString "other"); ("url", JString "https://other:6443")].
Definition hub_entry : ConfigNode :=
  [("name", JString "default"); ("url", JString "https://hub:6443");
   ("serviceAccountToken", JString "tok")].
Definition eu_entry : ConfigNode :=
  [("name", JString "eu-cluster"); ("url", JString "https://eu:6443")].
Definition unnamed_entry : ConfigNode := [("url", JString "https://unnamed:6443")].

Definition kube_config : ConfigNode :=
  kube_section [JObj other_entry; JObj hub_entry; JObj eu_entry].

Definition root_config : ConfigNode := multi_config ++ kube_config.

Lemma named_other_entry : named_other "default" other_entry.
Proof. exists "other". split; [reflexivity | apply String.eqb_neq; reflexivity]. Qed.






Definition root_pcs : list ProviderConfig :=
  match readProviderConfigs schedule_reader root_config with Ok ps => ps | Err _ => [] end.

Definition root_insts : list ProviderInstance :=
  match fromConfig schedule_reader root_config {| opt_schedule := true; opt_scheduler := false |}
  with Ok is => is | Err _ => [] end.

Lemma fromConfig_instances_witness :
  length root_insts = 2 /\
  Forall2 (instance_of root_config {| opt_schedule := true; opt_scheduler := false |})
    root_pcs root_insts.
Proof.
  split; [reflexivity|].
  apply (fromConfig_instances schedule_reader root_config
           {| opt_schedule := true; opt_scheduler := false |}); reflexivity.
Defined.

Definition scheduled_pc : ProviderConfig :=
  {| pc_id := "scheduled"; hubClusterName := "default"; pc_schedule := Some (JObj []);
     pc_defaults := None |}.
Definition unscheduled_pc : ProviderConfig :=
  {| pc_id := "unscheduled"; hubClusterName := "eu-cluster"; pc_schedule := None;
     pc_defaults := None |}.

Definition sched_config : ConfigNode :=
  [("catalog", JObj [("providers", JObj [("capi", JObj
     [("scheduled", JObj [("hubClusterName", JString "default");
                          ("schedule", JObj [])]);
      ("unscheduled", JObj [("hubClusterName", JString "eu-cluster")])])])])]
  ++ kube_config.


Definition unconnected : CAPIClusterProvider :=
  {| config := config (provider_of None); connected := false |}.




Lemma toResource_extends_v1_witness :
  exists e, toResource (provider_of (Some team_defaults)) [] cluster1 = Ok e /\
    md_annotations (re_metadata e) =
      md_annotations (re_metadata (toResource_v1 (provider_of (Some team_defaults)) cluster1)) ++
      [(ANNOTATION_KUBERNETES_API_SERVER, AUndefined);
       (ANNOTATION_KUBERNETES_API_SERVER_CA, AUndefined);
       (ANNOTATION_KUBERNETES_AUTH_PROVIDER, AStr "oidc")].
Proof.
  eexists. split.
  - apply (toResource_extends_v1 (provider_of (Some team_defaults)) [] cluster1). reflexivity.
  - reflexivity.
Defined.

Lemma refresh_succeeds_iff_witness :
  (fst (refresh decode_id load_throws (provider_of None) (hub_no_secrets (Ok [cluster1])) world0)
     = Ok tt <->
   Forall (kubeconfig_usable (kcs_of (hub_no_secrets (Ok [cluster1])) [cluster1])) [cluster1]) /\
  (fst (refresh decode_id load_throws (provider_of None) (hub_bad_secret [cluster1]) world0)
     = Ok tt <->
   Forall (kubeconfig_usable (kcs_of (hub_bad_secret [cluster1]) [cluster1])) [cluster1]).
Proof.
  split.
  - apply (refresh_succeeds_iff decode_id load_throws (provider_of None)
             (hub_no_secrets (Ok [cluster1])) world0 [cluster1]); reflexivity.
  - apply (refresh_succeeds_iff decode_id load_throws (provider_of None)
             (hub_bad_secret [cluster1]) world0 [cluster1]); reflexivity.
Defined.

Definition spaced_tags_cluster : Cluster :=
  mk_cluster "spaced" "clusters" [(ANNOTATION_CAPI_CLUSTER_TAGS, " a , b,,c ")] aws_ref.

Lemma clusterAnnotations_tags_witness :
  ann_tags (clusterAnnotations spaced_tags_cluster) = Some ["a"; "b"; ""; "c"] /\
  exists s, annotation spaced_tags_cluster ANNOTATION_CAPI_CLUSTER_TAGS = Some s /\
    length ["a"; "b"; ""; "c"] = S (count_commas s) /\ Forall trimmed ["a"; "b"; ""; "c"].
Proof.
  split; [reflexivity|].
  apply (clusterAnnotations_tags spaced_tags_cluster). reflexivity.
Defined.

Definition capi_secret (name data : string) : ListedSecret :=
  {| ls_name := Some name;
     ls_secret := {| secret_type := Some CAPI_CLUSTER_SECRET_TYPE;
                     secret_data_value := Some data |} |}.
Definition opaque_secret (name data : string) : ListedSecret :=
  {| ls_name := Some name;
     ls_secret := {| secret_type := Some "Opaque"; secret_data_value := Some data |} |}.

Definition load_named (s : string) : LoadOutcome :=
  Loaded {| kc_clusters := [{| kc_name := s; server := s; caData := None |}] |}.

Definition listed_secrets : list ListedSecret :=
  [capi_secret "hub-kubeconfig" "first"; opaque_secret "other" "x";
   capi_secret "hub-kubeconfig" "second"].

Definition secrets_map : list (string * KubeConfig) :=
  match getClusterKubeConfigs decode_id load_named (Ok listed_secrets) with
  | Ok m => m | Err _ => [] end.

Lemma getClusterKubeConfigs_lookup_witness :
  obj_get secrets_map "hub-kubeconfig" =
    Some {| kc_clusters := [{| kc_name := "second"; server := "second"; caData := None |}] |} /\
  obj_get secrets_map "other" = None.
Proof.
  split.
  - apply (proj2 (getClusterKubeConfigs_lookup decode_id load_named listed_secrets secrets_map
                    "hub-kubeconfig" eq_refl)
             [capi_secret "hub-kubeconfig" "first"; opaque_secret "other" "x"]
             (capi_secret "hub-kubeconfig" "second") []); try reflexivity.
    constructor.
  - apply (proj1 (getClusterKubeConfigs_lookup decode_id load_named listed_secrets secrets_map
                    "other" eq_refl)).
    constructor; [right | constructor; [left | constructor; [right | constructor]]];
      first [reflexivity | apply String.eqb_neq; reflexivity].
Defined.

Definition bare_router_cluster : RouterCluster := {| rc_metadata := None; rc_status := None |}.


Lemma readProviderConfig_ignores_other_keys_witness :
  readProviderConfig schedule_reader "default"
    ([("hubClusterName", JString "hub")] ++ [("defaultClusterOwner", JString "group:x")] ++ []) =
  readProviderConfig schedule_reader "default" ([("hubClusterName", JString "hub")] ++ []).
Proof.
  apply (readProviderConfig_ignores_other_keys schedule_reader "default"
           [("hubClusterName", JString "hub")] [("defaultClusterOwner", JString "group:x")] []).
  constructor; [|constructor]. cbn [fst].
  split; [|split]; apply String.eqb_neq; reflexivity.
Defined.

Definition broken_capi : ConfigNode :=
  [("a", JObj [("hubClusterName", JString "x")]); ("b", JString "oops");
   ("c", JObj [("hubClusterName", JString "y")])].

